(** * Coastline fetcher: a shallow embedding of [tools/get_geo_waypoints.py]

    The script asks the Overpass API for the coastline ways inside a bounding
    box, reshapes the decoded JSON answer into a list of segments (lists of
    [{lat, lon}] waypoints) and prints it with [json.dumps(..., indent=2)].

    Python values are dynamically typed, so the embedding works over a small
    universe [pyobj] of the objects a JSON decoder can produce, and every
    Python primitive used by the function ([dict.get], subscripting,
    iteration) is a total Rocq function returning either a value or the
    exception Python raises. *)

From Stdlib Require Import ZArith NArith String Ascii List Bool.
From Stdlib Require Import DecimalString SpecFloat Lia.
Import ListNotations.

Local Open Scope list_scope.

(** ** Python strings *)

(** A Python [str] is a sequence of Unicode code points. *)
Definition str := list N.

(** The [str] denoted by an ASCII literal of the source. *)
Definition u (s : string) : str := map N_of_ascii (list_ascii_of_string s).

Fixpoint str_eqb (a b : str) : bool :=
  match a, b with
  | [], [] => true
  | x :: a', y :: b' => N.eqb x y && str_eqb a' b'
  | _, _ => false
  end.

(** ** Python objects produced by a JSON decoder *)

Unset Elimination Schemes.
Inductive pyobj : Type :=
| PyNone
| PyBool (b : bool)
| PyInt (z : Z)
| PyFloat (f : spec_float)
| PyStr (s : str)
| PyList (items : list pyobj)
| PyDict (entries : list (str * pyobj)).
Set Elimination Schemes.

(** A [dict] keeps its entries in insertion order; a key is looked up from
    the front. *)
Fixpoint dict_lookup (k : str) (d : list (str * pyobj)) : option pyobj :=
  match d with
  | [] => None
  | (k', v) :: d' => if str_eqb k k' then Some v else dict_lookup k d'
  end.

(** ** Exceptions and the error monad *)

(** [NetworkError] stands for the [requests.exceptions.RequestException]
    family raised by [requests.get] (connection failure, timeout, ...);
    [DecodeError] for the [JSONDecodeError] raised by [response.json()].
    The other three are the built-in exceptions the reshaping code can
    raise. *)
Inductive exn : Type :=
| NetworkError
| DecodeError
| AttributeError
| TypeError
| KeyError (key : str).

Inductive result (A : Type) : Type :=
| Ok (a : A)
| Raise (e : exn).

Arguments Ok {A} a.
Arguments Raise {A} e.

Definition bind {A B : Type} (c : result A) (k : A -> result B) : result B :=
  match c with
  | Ok a => k a
  | Raise e => Raise e
  end.

Notation "x <- c ;; k" := (bind c (fun x => k))
  (at level 61, c at next level, right associativity).

(** ** Python primitives used by the function *)

(** [o.get(k, default)]: only a [dict] has a [get] method. *)
Definition py_get (o : pyobj) (k : str) (default : pyobj) : result pyobj :=
  match o with
  | PyDict d =>
      match dict_lookup k d with
      | Some v => Ok v
      | None => Ok default
      end
  | _ => Raise AttributeError
  end.

(** [o[k]] with a [str] key [k]: a missing key of a [dict] raises
    [KeyError]; a list or a string cannot be indexed by a [str], and the
    scalars are not subscriptable at all. *)
Definition py_getitem (o : pyobj) (k : str) : result pyobj :=
  match o with
  | PyDict d =>
      match dict_lookup k d with
      | Some v => Ok v
      | None => Raise (KeyError k)
      end
  | _ => Raise TypeError
  end.

(** The items a [for] loop (or [enumerate]) draws from [o]: the items of a
    list, the one-character strings of a [str], the keys of a [dict]; the
    other objects are not iterable. *)
Definition py_iter (o : pyobj) : result (list pyobj) :=
  match o with
  | PyList items => Ok items
  | PyStr s => Ok (map (fun c => PyStr [c]) s)
  | PyDict d => Ok (map (fun kv => PyStr (fst kv)) d)
  | _ => Raise TypeError
  end.

(** [for x in xs: s = body(x, s)], stopping at the first exception. *)
Fixpoint for_in {A S : Type} (xs : list A) (body : A -> S -> result S) (s : S)
  : result S :=
  match xs with
  | [] => Ok s
  | x :: xs' => s' <- body x s ;; for_in xs' body s'
  end.

(** ** The HTTP exchange *)

(** What the function can observe of a [requests.Response]: its status
    code and the object its body decodes to, [None] when the body is not
    valid JSON. *)
Record Response : Type := {
  status_code : Z;
  body_json : option pyobj
}.

(** [response.json()] *)
Definition json (response : Response) : result pyobj :=
  match body_json response with
  | Some data => Ok data
  | None => Raise DecodeError
  end.

(** [requests.get] either raises (transport failure) or returns a
    response, whatever its status. *)
Inductive http_outcome : Type :=
| TransportFailure
| Responded (response : Response).

Definition returned (o : http_outcome) : result Response :=
  match o with
  | TransportFailure => Raise NetworkError
  | Responded r => Ok r
  end.

(** ** Bounding-box arguments *)

(** The numbers a caller passes as bounds. *)
Inductive number : Type :=
| Int (z : Z)
| Float (f : spec_float).

(** The extended dyadic rational a number denotes, used to compare bounds
    exactly (a NaN denotes nothing). *)
Inductive extended : Type :=
| MinusInfinity
| Finite (m e : Z)      (* m * 2^e *)
| PlusInfinity.

Definition number_value (n : number) : option extended :=
  match n with
  | Int z => Some (Finite z 0)
  | Float (S754_zero _) => Some (Finite 0 0)
  | Float (S754_infinity true) => Some MinusInfinity
  | Float (S754_infinity false) => Some PlusInfinity
  | Float S754_nan => None
  | Float (S754_finite true m e) => Some (Finite (Z.neg m) e)
  | Float (S754_finite false m e) => Some (Finite (Z.pos m) e)
  end.

Definition extended_leb (x y : extended) : bool :=
  match x, y with
  | MinusInfinity, _ => true
  | _, PlusInfinity => true
  | Finite m1 e1, Finite m2 e2 =>
      let e := Z.min e1 e2 in
      (m1 * 2 ^ (e1 - e) <=? m2 * 2 ^ (e2 - e))%Z
  | _, _ => false
  end.

(** [a <= b] on Python numbers. *)
Definition number_leb (a b : number) : bool :=
  match number_value a, number_value b with
  | Some x, Some y => extended_leb x y
  | _, _ => false
  end.

(** The invariant of a bounding box: [minLat <= maxLat] and
    [minLon <= maxLon]. *)
Definition valid_bbox (min_lat min_lon max_lat max_lon : number) : Prop :=
  number_leb min_lat max_lat = true /\ number_leb min_lon max_lon = true.

(** ** Waypoints *)

(** The dict literal [{"lat": ..., "lon": ...}] built for every point. *)
Record Waypoint : Type := {
  lat : pyobj;
  lon : pyobj
}.

(** [int.__repr__]: the decimal digits, with a leading minus sign. *)
Definition int_repr (z : Z) : str := u (NilZero.string_of_int (Z.to_int z)).

Definition newline : str := [10%N].
Definition dquote : str := [34%N].
Definition overpass_url : str := u "https://overpass-api.de/api/interpreter".

(** ** Example answers

    The mocked upstream answer of the end-to-end scenario (one way with
    the points (35.0, 139.0) and (35.1, 139.1)), followed by a node
    without geometry. *)

Definition mock_point (la lo : spec_float) : pyobj :=
  PyDict [(u "lat", PyFloat la); (u "lon", PyFloat lo)].

Definition mock_points : list pyobj :=
  [mock_point (S754_finite false 4925812092436480 (-47))
              (S754_finite false 4890627720347648 (-45));
   mock_point (S754_finite false 4939885841272013 (-47))
              (S754_finite false 4894146157556531 (-45))].

Definition mock_way_entries : list (str * pyobj) :=
  [(u "type", PyStr (u "way")); (u "id", PyInt 4300);
   (u "geometry", PyList mock_points)].

Definition mock_node_entries : list (str * pyobj) :=
  [(u "type", PyStr (u "node")); (u "id", PyInt 17)].

Definition mock_elements : list pyobj :=
  [PyDict mock_way_entries; PyDict mock_node_entries].

Definition mock_entries : list (str * pyobj) :=
  [(u "generator", PyStr (u "Overpass API")); (u "elements", PyList mock_elements)].

(** An answer whose second element has a point without [lon]. *)
Definition broken_elements : list pyobj :=
  [PyDict mock_way_entries;
   PyDict [(u "type", PyStr (u "way"));
           (u "geometry", PyList [PyDict [(u "lat", PyInt 35)]])]].

Definition broken_entries : list (str * pyobj) :=
  [(u "elements", PyList broken_elements)].

(** Answers without elements: an empty array, and no field at all. *)
Definition empty_entries : list (str * pyobj) :=
  [(u "generator", PyStr (u "Overpass API")); (u "elements", PyList [])].

Definition remark_entries : list (str * pyobj) :=
  [(u "remark", PyStr (u "runtime error: Query timed out"))].

(** A network that answers every request with the same status and body. *)
Definition answering (status : Z) (body : option pyobj)
    (url : str) (params : list (str * str)) : http_outcome :=
  Responded {| status_code := status; body_json := body |}.

Definition mock_network := answering 200 (Some (PyDict mock_entries)).
Definition broken_network := answering 200 (Some (PyDict broken_entries)).
Definition empty_network := answering 200 (Some (PyDict empty_entries)).
Definition remark_network := answering 200 (Some (PyDict remark_entries)).

(** Answers with the status 500 (and a JSON body) and the status 504 (and
    a body that is not JSON). *)
Definition error_500_network := answering 500 (Some (PyDict remark_entries)).
Definition error_504_network := answering 504 None.

(** The float printer of the examples, none of which formats a float: their
    bounds are the integers 34, 138, 37 and 142. *)
Definition repr_unused (f : spec_float) : str := [].

Section Fetcher.

(** [float.__repr__], the shortest decimal text that reads back as the
    same float: part of the Python runtime, not of the repository. *)
Variable float_repr : spec_float -> str.

(** [requests.get(url, params=...)]: the network. *)
Variable requests_get : str -> list (str * str) -> http_outcome.

(** A replacement field [{x}] of an f-string. *)
Definition format_number (x : number) : str :=
  match x with
  | Int z => int_repr z
  | Float f => float_repr f
  end.

(** The f-string assigned to [query]. *)
Definition query (min_lat min_lon max_lat max_lon : number) : str :=
  newline
  ++ u "    [out:json][timeout:25];" ++ newline
  ++ u "    (" ++ newline
  ++ u "      way[" ++ dquote ++ u "natural" ++ dquote ++ u "="
     ++ dquote ++ u "coastline" ++ dquote ++ u "]("
     ++ format_number min_lat ++ u ", " ++ format_number min_lon ++ u ", "
     ++ format_number max_lat ++ u ", " ++ format_number max_lon
     ++ u ");" ++ newline
  ++ u "    );" ++ newline
  ++ u "    out geom;" ++ newline
  ++ u "    ".

(** Body of the inner loop: [waypoints.append({...})]. *)
Definition append_waypoint (point : pyobj) (waypoints : list Waypoint)
  : result (list Waypoint) :=
  la <- py_getitem point (u "lat") ;;
  lo <- py_getitem point (u "lon") ;;
  Ok (waypoints ++ [ {| lat := la; lon := lo |} ]).

(** The [waypoints] list built for one element of the outer loop. *)
Definition way_waypoints (way : pyobj) : result (list Waypoint) :=
  geometry <- py_get way (u "geometry") (PyList []) ;;
  points <- py_iter geometry ;;
  for_in points append_waypoint [].

(** Body of the outer loop, ending in [all_segments.append(waypoints)]. *)
Definition append_segment (way : pyobj) (all_segments : list (list Waypoint))
  : result (list (list Waypoint)) :=
  waypoints <- way_waypoints way ;;
  Ok (all_segments ++ [waypoints]).

Definition fetch_coastline_as_waypoints
    (min_lat min_lon max_lat max_lon : number)
  : result (list (list Waypoint)) :=
  response <- returned
    (requests_get overpass_url
       [(u "data", query min_lat min_lon max_lat max_lon)]) ;;
  data <- json response ;;
  elements <- py_get data (u "elements") (PyList []) ;;
  ways <- py_iter elements ;;
  for_in ways append_segment [].

(** The part of the function after [data = response.json()]. *)
Definition reshape (data : pyobj) : result (list (list Waypoint)) :=
  elements <- py_get data (u "elements") (PyList []) ;;
  ways <- py_iter elements ;;
  for_in ways append_segment [].

(** *** Output: [json.dumps(coast_data, indent=2)]

    The encoder of the standard library ([json.encoder], with its
    defaults [ensure_ascii=True], [allow_nan=True] and the separators
    ["," ] and [": "] that [indent] selects). *)

Definition hex_digit (n : N) : N :=
  (if n <? 10 then 48 + n else 87 + n)%N.

(** ['\\u{0:04x}'.format(n)] *)
Definition escape_u (n : N) : str :=
  [92; 117]%N
  ++ [hex_digit ((n / 4096) mod 16); hex_digit ((n / 256) mod 16);
      hex_digit ((n / 16) mod 16); hex_digit (n mod 16)]%N.

Definition escape_char (c : N) : str :=
  (if c =? 92 then [92; 92]
   else if c =? 34 then [92; 34]
   else if c =? 8 then [92; 98]
   else if c =? 12 then [92; 102]
   else if c =? 10 then [92; 110]
   else if c =? 13 then [92; 114]
   else if c =? 9 then [92; 116]
   else if (32 <=? c) && (c <=? 126) then [c]
   else if c <? 65536 then escape_u c
   else
     let n := c - 65536 in
     escape_u (N.lor 55296 (N.land (N.shiftr n 10) 1023))
     ++ escape_u (N.lor 56320 (N.land n 1023)))%N.

Definition encode_basestring_ascii (s : str) : str :=
  dquote ++ flat_map escape_char s ++ dquote.

Definition floatstr (f : spec_float) : str :=
  match f with
  | S754_nan => u "NaN"
  | S754_infinity false => u "Infinity"
  | S754_infinity true => u "-Infinity"
  | _ => float_repr f
  end.

(** ['\n' + indent * level], with [indent] two spaces. *)
Definition newline_indent (level : nat) : str :=
  newline ++ repeat 32%N (2 * level).

Fixpoint iterencode (level : nat) (o : pyobj) : str :=
  match o with
  | PyStr s => encode_basestring_ascii s
  | PyNone => u "null"
  | PyBool true => u "true"
  | PyBool false => u "false"
  | PyInt z => int_repr z
  | PyFloat f => floatstr f
  | PyList items =>
      match items with
      | [] => u "[]"
      | x :: xs =>
          u "[" ++ newline_indent (S level) ++ iterencode (S level) x
          ++ (fix rest (l : list pyobj) : str :=
                match l with
                | [] => []
                | y :: l' =>
                    u "," ++ newline_indent (S level)
                    ++ iterencode (S level) y ++ rest l'
                end) xs
          ++ newline_indent level ++ u "]"
      end
  | PyDict entries =>
      match entries with
      | [] => u "{}"
      | (k, v) :: kvs =>
          u "{" ++ newline_indent (S level)
          ++ encode_basestring_ascii k ++ u ": " ++ iterencode (S level) v
          ++ (fix rest (l : list (str * pyobj)) : str :=
                match l with
                | [] => []
                | (k', v') :: l' =>
                    u "," ++ newline_indent (S level)
                    ++ encode_basestring_ascii k' ++ u ": "
                    ++ iterencode (S level) v' ++ rest l'
                end) kvs
          ++ newline_indent level ++ u "}"
      end
  end.

(** The Python object a result is: a list of lists of two-key dicts. *)
Definition py_of_waypoint (w : Waypoint) : pyobj :=
  PyDict [(u "lat", lat w); (u "lon", lon w)].

Definition py_of_segments (segments : list (list Waypoint)) : pyobj :=
  PyList (map (fun waypoints => PyList (map py_of_waypoint waypoints))
              segments).

(** [json.dumps(coast_data, indent=2)] on a result of the function. *)
Definition dumps (segments : list (list Waypoint)) : str :=
  iterencode 0 (py_of_segments segments).

(** *** The script

    [bbox_haneda = (34.2, 138.1, 36.9, 141.4)], written as the binary64
    numbers these literals denote. *)
Definition bbox_haneda : number * number * number * number :=
  (Float (S754_finite false 4813222101752218 (-47)),
   Float (S754_finite false 4858961785467699 (-45)),
   Float (S754_finite false 5193213320311603 (-47)),
   Float (S754_finite false 4975070213360845 (-45))).

(** The text the script writes to standard output, or the exception that
    ends it. *)
Definition script : result str :=
  let '(south, west, north, east) := bbox_haneda in
  coast_data <- fetch_coastline_as_waypoints south west north east ;;
  Ok (dumps coast_data ++ newline).


(** *** Vocabulary of the specification *)

(** The upstream answers the request for this bounding box with a body
    that decodes to [data] (whatever the status of the answer). *)
Definition upstream_decodes_to (min_lat min_lon max_lat max_lon : number)
    (data : pyobj) : Prop :=
  exists status,
    requests_get overpass_url
      [(u "data", query min_lat min_lon max_lat max_lon)]
    = Responded {| status_code := status; body_json := Some data |}.

Definition is_2xx (response : Response) : bool :=
  ((200 <=? status_code response) && (status_code response <? 300))%Z.

Definition is_object (o : pyobj) : bool :=
  match o with
  | PyDict _ => true
  | _ => false
  end.

Definition has_key (k : str) (d : list (str * pyobj)) : bool :=
  match dict_lookup k d with
  | Some _ => true
  | None => false
  end.

(** A point object: an object with a [lat] and a [lon] field. *)
Definition is_point_object (point : pyobj) : bool :=
  match point with
  | PyDict d => has_key (u "lat") d && has_key (u "lon") d
  | _ => false
  end.

(** The shape of an element whose points satisfy [ok]: an object whose
    [geometry] field, when present, is an array of such points. *)
Definition element_with (ok : pyobj -> bool) (way : pyobj) : bool :=
  match way with
  | PyDict d =>
      match dict_lookup (u "geometry") d with
      | None => true
      | Some (PyList points) => forallb ok points
      | Some _ => false
      end
  | _ => false
  end.

(** An element object: the geometry, when present, is an array of point
    objects. *)
Definition is_element_object : pyobj -> bool :=
  element_with is_point_object.

(** An element one of whose points is an object without [lat] or without
    [lon]. *)
Definition has_incomplete_point (way : pyobj) : bool :=
  match way with
  | PyDict d =>
      match dict_lookup (u "geometry") d with
      | Some (PyList points) =>
          existsb (fun p => is_object p && negb (is_point_object p)) points
      | _ => false
      end
  | _ => false
  end.

(** [d[k] = v] *)
Fixpoint dict_set (k : str) (v : pyobj) (d : list (str * pyobj))
  : list (str * pyobj) :=
  match d with
  | [] => [(k, v)]
  | (k', v') :: d' =>
      if str_eqb k k' then (k', v) :: d' else (k', v') :: dict_set k v d'
  end.

(** The element [way] with its [type] field set to [ty]. *)
Definition with_type (ty : pyobj) (way : pyobj) : pyobj :=
  match way with
  | PyDict d => PyDict (dict_set (u "type") ty d)
  | _ => way
  end.

(** The waypoint one point yields. *)
Definition waypoint_of (point : pyobj) : result Waypoint :=
  la <- py_getitem point (u "lat") ;;
  lo <- py_getitem point (u "lon") ;;
  Ok {| lat := la; lon := lo |}.

Fixpoint mapM {A B : Type} (f : A -> result B) (xs : list A)
  : result (list B) :=
  match xs with
  | [] => Ok []
  | x :: xs' => y <- f x ;; ys <- mapM f xs' ;; Ok (y :: ys)
  end.

(** The exceptions the key lookups [point['lat']] and [point['lon']]
    raise on an object. *)
Definition missing_coordinate (e : exn) : Prop :=
  e = KeyError (u "lat") \/ e = KeyError (u "lon").

(** The exceptions of the built-in operations, as opposed to those of
    the HTTP exchange. *)
Definition is_builtin_error (e : exn) : Prop :=
  match e with
  | NetworkError | DecodeError => False
  | _ => True
  end.

(** *** The exception a response leads to

    The first exception met when the items are visited in order: the
    error-only reading of the two loops. *)

Fixpoint first_error {A : Type} (err : A -> option exn) (xs : list A)
  : option exn :=
  match xs with
  | [] => None
  | x :: xs' =>
      match err x with
      | Some e => Some e
      | None => first_error err xs'
      end
  end.

(** The exception met by a loop over [o], drawing its items included. *)
Definition iter_error (err : pyobj -> option exn) (o : pyobj) : option exn :=
  match py_iter o with
  | Ok xs => first_error err xs
  | Raise e => Some e
  end.

(** [point['lat']] is evaluated before [point['lon']]. *)
Definition point_error (point : pyobj) : option exn :=
  match point with
  | PyDict d =>
      if has_key (u "lat") d then
        if has_key (u "lon") d then None else Some (KeyError (u "lon"))
      else Some (KeyError (u "lat"))
  | _ => Some TypeError
  end.

Definition way_error (way : pyobj) : option exn :=
  match way with
  | PyDict d =>
      match dict_lookup (u "geometry") d with
      | None => None
      | Some geometry => iter_error point_error geometry
      end
  | _ => Some AttributeError
  end.

Definition data_error (data : pyobj) : option exn :=
  match data with
  | PyDict d =>
      match dict_lookup (u "elements") d with
      | None => None
      | Some elements => iter_error way_error elements
      end
  | _ => Some AttributeError
  end.

(** [c] ends as [oe] says: with that exception, or with some value. *)
Definition outcome_is {A : Type} (c : result A) (oe : option exn) : Prop :=
  match oe with
  | Some e => c = Raise e
  | None => exists a, c = Ok a
  end.

(** *** The fields the function reads

    A response stripped of every field but [elements], of every field of
    an element but [geometry], and of every field of a point but [lat] and
    [lon]. *)

Definition keep (k : str) (d : list (str * pyobj)) : list (str * pyobj) :=
  match dict_lookup k d with
  | Some v => [(k, v)]
  | None => []
  end.

Definition prune_point (point : pyobj) : pyobj :=
  match point with
  | PyDict d => PyDict (keep (u "lat") d ++ keep (u "lon") d)
  | _ => point
  end.

Definition prune_way (way : pyobj) : pyobj :=
  match way with
  | PyDict d =>
      PyDict
        match dict_lookup (u "geometry") d with
        | Some (PyList points) =>
            [(u "geometry", PyList (map prune_point points))]
        | Some geometry => [(u "geometry", geometry)]
        | None => []
        end
  | _ => way
  end.

Definition prune_data (data : pyobj) : pyobj :=
  match data with
  | PyDict d =>
      PyDict
        match dict_lookup (u "elements") d with
        | Some (PyList ways) => [(u "elements", PyList (map prune_way ways))]
        | Some elements => [(u "elements", elements)]
        | None => []
        end
  | _ => data
  end.

(** A text of ASCII characters only. *)
Definition is_ascii (s : str) : Prop := Forall (fun c => (c < 128)%N) s.

(** ** Lemmas on strings and dicts *)

Lemma str_eqb_eq (a b : str) : str_eqb a b = true <-> a = b.
Proof.
  revert b; induction a as [|x a IH]; intros [|y b]; simpl;
    try (split; [discriminate | discriminate]); [tauto|].
  rewrite andb_true_iff, N.eqb_eq, IH.
  split; [intros [-> ->]; reflexivity | intros H; inversion H; auto].
Qed.

Lemma str_eqb_neq (a b : str) : str_eqb a b = false <-> a <> b.
Proof.
  rewrite <- str_eqb_eq. destruct (str_eqb a b); split; congruence.
Qed.

Lemma dict_lookup_set_other (k k' : str) (v : pyobj) d :
  k <> k' -> dict_lookup k (dict_set k' v d) = dict_lookup k d.
Proof.
  intros Hne. induction d as [|[k1 v1] d IH]; simpl.
  - apply str_eqb_neq in Hne. now rewrite Hne.
  - destruct (str_eqb k' k1) eqn:E; simpl.
    + apply str_eqb_eq in E; subst k1.
      apply str_eqb_neq in Hne. now rewrite Hne.
    + now rewrite IH.
Qed.

(** ** Lemmas on loops *)

Lemma for_in_appending {A B : Type} (f : A -> result B)
    (body : A -> list B -> result (list B)) :
  (forall x acc, body x acc = (y <- f x ;; Ok (acc ++ [y]))) ->
  forall xs acc,
    for_in xs body acc = (ys <- mapM f xs ;; Ok (acc ++ ys)).
Proof.
  intros Hbody xs. induction xs as [|x xs IH]; intros acc; simpl.
  - now rewrite app_nil_r.
  - rewrite Hbody. destruct (f x) as [y|e]; simpl; [|reflexivity].
    rewrite IH. destruct (mapM f xs); simpl; [|reflexivity].
    now rewrite <- app_assoc.
Qed.

Lemma mapM_Ok {A B : Type} (f : A -> result B) xs ys :
  mapM f xs = Ok ys <-> Forall2 (fun x y => f x = Ok y) xs ys.
Proof.
  revert ys. induction xs as [|x xs IH]; intros ys; simpl.
  - split.
    + intros H; inversion H; constructor.
    + intros H; inversion H; reflexivity.
  - split.
    + destruct (f x) as [y|e] eqn:Ex; simpl; [|discriminate].
      destruct (mapM f xs) as [ys'|e] eqn:Exs; simpl; [|discriminate].
      intros H; inversion H; subst. constructor; [assumption|].
      now apply IH.
    + intros H; inversion H as [|? y ? ys' Hx Hxs]; subst.
      rewrite Hx; simpl. apply IH in Hxs. now rewrite Hxs.
Qed.

Lemma mapM_total {A B : Type} (f : A -> result B) xs :
  Forall (fun x => exists y, f x = Ok y) xs -> exists ys, mapM f xs = Ok ys.
Proof.
  induction 1 as [|x xs [y Hy] _ [ys Hys]]; simpl.
  - now exists [].
  - exists (y :: ys). now rewrite Hy, Hys.
Qed.

(** When some item fails, [mapM] fails with an exception one of the
    items raises. *)
Lemma mapM_Raise {A B : Type} (f : A -> result B) (P : exn -> Prop) xs :
  Forall (fun x => forall e, f x = Raise e -> P e) xs ->
  Exists (fun x => exists e, f x = Raise e) xs ->
  exists e, mapM f xs = Raise e /\ P e.
Proof.
  induction 1 as [|x xs Hx _ IH]; intros Hex; simpl.
  - inversion Hex.
  - destruct (f x) as [y|e] eqn:Ex; simpl.
    + inversion Hex as [? ? [e He]|? ? Htl]; subst; [congruence|].
      destruct (IH Htl) as [e [-> He]]. now exists e.
    + exists e. auto.
Qed.

Lemma mapM_Raise_inv {A B : Type} (f : A -> result B) (P : exn -> Prop) xs e :
  Forall (fun x => forall e, f x = Raise e -> P e) xs ->
  mapM f xs = Raise e -> P e.
Proof.
  induction 1 as [|x xs Hx _ IH]; simpl; [discriminate|].
  destruct (f x) as [y|e'] eqn:Ex; simpl.
  - destruct (mapM f xs) as [ys|e'']; simpl; [discriminate|].
    intros H; inversion H; subst. now apply IH.
  - intros H; inversion H; subst. now apply Hx.
Qed.

Lemma Forall2_nth_error_l {A B : Type} (R : A -> B -> Prop) xs ys :
  Forall2 R xs ys ->
  forall i x, nth_error xs i = Some x ->
    exists y, nth_error ys i = Some y /\ R x y.
Proof.
  induction 1 as [|x y xs ys Hxy _ IH]; intros [|i] x0; simpl;
    try discriminate.
  - intros H; inversion H; subst. now exists y.
  - apply IH.
Qed.

(** ** The function as a map over elements and points *)

Lemma append_waypoint_spec point waypoints :
  append_waypoint point waypoints
  = (w <- waypoint_of point ;; Ok (waypoints ++ [w])).
Proof.
  unfold append_waypoint, waypoint_of.
  destruct (py_getitem point (u "lat")); simpl; [|reflexivity].
  destruct (py_getitem point (u "lon")); reflexivity.
Qed.

Lemma bind_Ok_id {A : Type} (c : result A) : (x <- c ;; Ok x) = c.
Proof. now destruct c. Qed.

Lemma way_waypoints_mapM way :
  way_waypoints way
  = (geometry <- py_get way (u "geometry") (PyList []) ;;
     points <- py_iter geometry ;;
     mapM waypoint_of points).
Proof.
  unfold way_waypoints.
  destruct (py_get way (u "geometry") (PyList [])); simpl; [|reflexivity].
  destruct (py_iter a); simpl; [|reflexivity].
  rewrite (for_in_appending waypoint_of append_waypoint append_waypoint_spec).
  apply bind_Ok_id.
Qed.

Lemma reshape_mapM data :
  reshape data
  = (elements <- py_get data (u "elements") (PyList []) ;;
     ways <- py_iter elements ;;
     mapM way_waypoints ways).
Proof.
  unfold reshape.
  destruct (py_get data (u "elements") (PyList [])); simpl; [|reflexivity].
  destruct (py_iter a); simpl; [|reflexivity].
  rewrite (for_in_appending way_waypoints append_segment)
    by reflexivity.
  apply bind_Ok_id.
Qed.

Lemma fetch_responded a b c d response :
  requests_get overpass_url [(u "data", query a b c d)]
  = Responded response ->
  fetch_coastline_as_waypoints a b c d
  = (data <- json response ;; reshape data).
Proof.
  intros H. unfold fetch_coastline_as_waypoints. now rewrite H.
Qed.

Lemma fetch_decoded a b c d data :
  upstream_decodes_to a b c d data ->
  fetch_coastline_as_waypoints a b c d = reshape data.
Proof.
  intros [status H]. now rewrite (fetch_responded _ _ _ _ _ H).
Qed.

Lemma fetch_elements a b c d entries els :
  upstream_decodes_to a b c d (PyDict entries) ->
  dict_lookup (u "elements") entries = Some (PyList els) ->
  fetch_coastline_as_waypoints a b c d = mapM way_waypoints els.
Proof.
  intros Hup Hel. rewrite (fetch_decoded _ _ _ _ _ Hup), reshape_mapM.
  simpl. now rewrite Hel.
Qed.

(** ** Points and elements, one at a time *)

Lemma has_key_lookup k d :
  has_key k d = true -> exists v, dict_lookup k d = Some v.
Proof.
  unfold has_key. destruct (dict_lookup k d) as [v|]; [|discriminate].
  now exists v.
Qed.

Lemma point_object_waypoint point :
  is_point_object point = true ->
  exists w,
    waypoint_of point = Ok w /\
    py_getitem point (u "lat") = Ok (lat w) /\
    py_getitem point (u "lon") = Ok (lon w).
Proof.
  destruct point; try discriminate. simpl.
  intros H. apply andb_true_iff in H. destruct H as [Hla Hlo].
  apply has_key_lookup in Hla. apply has_key_lookup in Hlo.
  destruct Hla as [la Hla], Hlo as [lo Hlo].
  exists {| lat := la; lon := lo |}.
  unfold waypoint_of, py_getitem. rewrite Hla, Hlo. auto.
Qed.

Lemma object_point_raises point e :
  is_object point = true ->
  waypoint_of point = Raise e -> missing_coordinate e.
Proof.
  destruct point; try discriminate. intros _.
  unfold waypoint_of, py_getitem, missing_coordinate.
  destruct (dict_lookup (u "lat") entries); simpl.
  - destruct (dict_lookup (u "lon") entries); simpl; [discriminate|].
    intros H; inversion H; auto.
  - intros H; inversion H; auto.
Qed.

Lemma incomplete_point_raises point :
  is_object point && negb (is_point_object point) = true ->
  exists e, waypoint_of point = Raise e.
Proof.
  destruct point; try discriminate. simpl.
  unfold waypoint_of, py_getitem, has_key.
  destruct (dict_lookup (u "lat") entries); simpl; [|eauto].
  destruct (dict_lookup (u "lon") entries); simpl; [discriminate|eauto].
Qed.

(** The segment of an element whose geometry is the array [points]. *)
Lemma way_waypoints_geometry entries points :
  dict_lookup (u "geometry") entries = Some (PyList points) ->
  way_waypoints (PyDict entries) = mapM waypoint_of points.
Proof.
  intros H. rewrite way_waypoints_mapM. simpl. now rewrite H.
Qed.

Lemma way_waypoints_no_geometry entries :
  dict_lookup (u "geometry") entries = None ->
  way_waypoints (PyDict entries) = Ok [].
Proof.
  intros H. rewrite way_waypoints_mapM. simpl. now rewrite H.
Qed.

Lemma points_total points :
  forallb is_point_object points = true ->
  exists waypoints, mapM waypoint_of points = Ok waypoints.
Proof.
  intros H. apply mapM_total. rewrite forallb_forall in H.
  apply Forall_forall. intros p Hp.
  destruct (point_object_waypoint p (H p Hp)) as [w [Hw _]]. eauto.
Qed.

Lemma element_object_segment way :
  is_element_object way = true ->
  exists waypoints, way_waypoints way = Ok waypoints.
Proof.
  destruct way; try discriminate.
  unfold is_element_object, element_with.
  destruct (dict_lookup (u "geometry") entries) as [g|] eqn:Eg.
  - destruct g; try discriminate. intros H.
    rewrite (way_waypoints_geometry _ _ Eg). now apply points_total.
  - intros _. exists []. now apply way_waypoints_no_geometry.
Qed.

Lemma element_objects_segments els :
  Forall (fun way => is_element_object way = true) els ->
  exists segments,
    mapM way_waypoints els = Ok segments /\
    Forall2 (fun way waypoints => way_waypoints way = Ok waypoints)
            els segments.
Proof.
  intros H.
  destruct (mapM_total way_waypoints els) as [segments Hs].
  - eapply Forall_impl; [|exact H]. apply element_object_segment.
  - exists segments. split; [assumption|]. now apply mapM_Ok.
Qed.

(** An element depends on its [geometry] field only. *)
Lemma way_waypoints_with_type ty way :
  way_waypoints (with_type ty way) = way_waypoints way.
Proof.
  destruct way; try reflexivity.
  rewrite !way_waypoints_mapM. simpl.
  rewrite dict_lookup_set_other; [reflexivity|].
  apply str_eqb_neq. reflexivity.
Qed.

Lemma waypoint_raises_builtin point e :
  waypoint_of point = Raise e -> is_builtin_error e.
Proof.
  unfold waypoint_of, py_getitem.
  destruct point; simpl; try (intros H; inversion H; exact I).
  destruct (dict_lookup (u "lat") entries); simpl;
    [|intros H; inversion H; exact I].
  destruct (dict_lookup (u "lon") entries); simpl;
    intros H; inversion H; exact I.
Qed.

Lemma way_raises_builtin way e :
  way_waypoints way = Raise e -> is_builtin_error e.
Proof.
  rewrite way_waypoints_mapM.
  destruct (py_get way (u "geometry") (PyList [])) as [g|e'] eqn:Eg.
  - simpl. destruct (py_iter g) as [points|e'] eqn:Ei; simpl.
    + apply mapM_Raise_inv, Forall_forall. intros p _ e'.
      apply waypoint_raises_builtin.
    + destruct g; try discriminate; simpl in Ei;
        inversion Ei; intros H; inversion H; exact I.
  - destruct way; try discriminate; simpl in *;
      try (inversion Eg; intros H; inversion H; exact I).
    destruct (dict_lookup (u "geometry") entries); discriminate.
Qed.

Lemma reshape_raises_builtin data e :
  reshape data = Raise e -> is_builtin_error e.
Proof.
  rewrite reshape_mapM.
  destruct (py_get data (u "elements") (PyList [])) as [els|e'] eqn:Eg.
  - simpl. destruct (py_iter els) as [ways|e'] eqn:Ei; simpl.
    + apply mapM_Raise_inv, Forall_forall. intros way _ e'.
      apply way_raises_builtin.
    + destruct els; try discriminate; simpl in Ei;
        inversion Ei; intros H; inversion H; exact I.
  - destruct data; try discriminate; simpl in *;
      try (inversion Eg; intros H; inversion H; exact I).
    destruct (dict_lookup (u "elements") entries); discriminate.
Qed.

Lemma object_geometry_raises way e :
  element_with is_object way = true ->
  way_waypoints way = Raise e -> missing_coordinate e.
Proof.
  destruct way; try discriminate. unfold element_with.
  destruct (dict_lookup (u "geometry") entries) as [g|] eqn:Eg.
  - destruct g; try discriminate. intros Hall.
    rewrite (way_waypoints_geometry _ _ Eg).
    apply mapM_Raise_inv, Forall_forall. intros p Hp e'.
    rewrite forallb_forall in Hall. apply object_point_raises. auto.
  - intros _. now rewrite (way_waypoints_no_geometry _ Eg).
Qed.

Lemma incomplete_point_way_raises way :
  element_with is_object way = true ->
  has_incomplete_point way = true ->
  exists e, way_waypoints way = Raise e.
Proof.
  destruct way; try discriminate. unfold element_with, has_incomplete_point.
  destruct (dict_lookup (u "geometry") entries) as [g|] eqn:Eg;
    [|discriminate].
  destruct g; try discriminate. intros Hall Hex.
  rewrite (way_waypoints_geometry _ _ Eg).
  destruct (mapM_Raise waypoint_of missing_coordinate items) as [e [He _]].
  - apply Forall_forall. intros p Hp e'.
    rewrite forallb_forall in Hall. apply object_point_raises. auto.
  - apply existsb_exists in Hex. destruct Hex as [p [Hp Hbad]].
    apply Exists_exists. exists p. split; [assumption|].
    now apply incomplete_point_raises.
  - now exists e.
Qed.

Lemma waypoint_of_Ok point w :
  waypoint_of point = Ok w ->
  py_getitem point (u "lat") = Ok (lat w) /\
  py_getitem point (u "lon") = Ok (lon w).
Proof.
  unfold waypoint_of.
  destruct (py_getitem point (u "lat")) as [la|]; simpl; [|discriminate].
  destruct (py_getitem point (u "lon")) as [lo|]; simpl; [|discriminate].
  intros H; inversion H; subst; simpl. auto.
Qed.

Lemma fetch_element_objects a b c d entries els :
  upstream_decodes_to a b c d (PyDict entries) ->
  dict_lookup (u "elements") entries = Some (PyList els) ->
  Forall (fun way => is_element_object way = true) els ->
  exists segments,
    fetch_coastline_as_waypoints a b c d = Ok segments /\
    Forall2 (fun way waypoints => way_waypoints way = Ok waypoints)
            els segments.
Proof.
  intros Hup Hel Hall. rewrite (fetch_elements _ _ _ _ _ _ Hup Hel).
  now apply element_objects_segments.
Qed.

(** The only way to [NetworkError] is a failure of the request itself. *)
Lemma network_error_iff_transport_failure a b c d :
  fetch_coastline_as_waypoints a b c d = Raise NetworkError <->
  requests_get overpass_url [(u "data", query a b c d)] = TransportFailure.
Proof.
  unfold fetch_coastline_as_waypoints.
  destruct (requests_get overpass_url [(u "data", query a b c d)])
    as [|response]; simpl; [tauto|].
  split; [|discriminate]. unfold json.
  destruct (body_json response) as [data|]; simpl; [|discriminate].
  intros H. apply reshape_raises_builtin in H. destruct H.
Qed.

(** With no elements the script prints [[]] and a newline. *)
Lemma script_prints_empty_array entries :
  (let '(south, west, north, east) := bbox_haneda in
   upstream_decodes_to south west north east (PyDict entries)) ->
  dict_lookup (u "elements") entries = Some (PyList []) ->
  script = Ok (u "[]" ++ newline).
Proof.
  unfold script. simpl. intros Hup Hel.
  now rewrite (fetch_elements _ _ _ _ _ _ Hup Hel).
Qed.

(** ** The claims *)

(** Claim C1. When the decoded response is an object whose [elements]
    field is an array of N element objects, the function returns exactly
    N segments, and the i-th segment is the one built from the i-th
    element. *)
Theorem segments_follow_elements a b c d entries els :
  upstream_decodes_to a b c d (PyDict entries) ->
  dict_lookup (u "elements") entries = Some (PyList els) ->
  Forall (fun way => is_element_object way = true) els ->
  exists segments,
    fetch_coastline_as_waypoints a b c d = Ok segments /\
    length segments = length els /\
    forall i way, nth_error els i = Some way ->
      exists waypoints,
        nth_error segments i = Some waypoints /\
        way_waypoints way = Ok waypoints.
Proof.
  intros Hup Hel Hall.
  destruct (fetch_element_objects _ _ _ _ _ _ Hup Hel Hall)
    as [segments [Hfetch Hall2]].
  exists segments. split; [assumption|]. split.
  - symmetry. exact (Forall2_length Hall2).
  - exact (Forall2_nth_error_l _ _ _ Hall2).
Qed.

(** Claim C2. For the j-th element of a response of element objects, if
    its [geometry] field is an array of K point objects (each with a
    [lat] and a [lon] field, as an element object has them), then the
    j-th segment returned has exactly K waypoints, and the [lat] and
    [lon] of the i-th waypoint are the values of [point['lat']] and
    [point['lon']] for the i-th point. *)
Theorem waypoints_follow_geometry a b c d entries els j way_entries points :
  upstream_decodes_to a b c d (PyDict entries) ->
  dict_lookup (u "elements") entries = Some (PyList els) ->
  Forall (fun way => is_element_object way = true) els ->
  nth_error els j = Some (PyDict way_entries) ->
  dict_lookup (u "geometry") way_entries = Some (PyList points) ->
  exists segments waypoints,
    fetch_coastline_as_waypoints a b c d = Ok segments /\
    nth_error segments j = Some waypoints /\
    length waypoints = length points /\
    forall i point, nth_error points i = Some point ->
      exists w,
        nth_error waypoints i = Some w /\
        py_getitem point (u "lat") = Ok (lat w) /\
        py_getitem point (u "lon") = Ok (lon w).
Proof.
  intros Hup Hel Hall Hj Hgeo.
  destruct (fetch_element_objects _ _ _ _ _ _ Hup Hel Hall)
    as [segments [Hfetch Hall2]].
  destruct (Forall2_nth_error_l _ _ _ Hall2 _ _ Hj)
    as [waypoints [Hseg Hway]].
  rewrite (way_waypoints_geometry _ _ Hgeo) in Hway.
  apply mapM_Ok in Hway.
  exists segments, waypoints. repeat split; try assumption.
  - symmetry. exact (Forall2_length Hway).
  - intros i point Hi.
    destruct (Forall2_nth_error_l _ _ _ Hway _ _ Hi) as [w [Hw Hpt]].
    exists w. split; [assumption|]. now apply waypoint_of_Ok.
Qed.

(** Claim C3, as amended. For every upstream response whose HTTP status
    is not 2xx, the call does not fail with [NetworkError]: the status is
    not examined, the call fails with [DecodeError] when the body is not
    valid JSON, and otherwise it returns or fails exactly as the
    reshaping of the decoded body does. *)
Theorem non_2xx_status_is_not_examined a b c d response :
  requests_get overpass_url [(u "data", query a b c d)]
  = Responded response ->
  is_2xx response = false ->
  fetch_coastline_as_waypoints a b c d <> Raise NetworkError /\
  (body_json response = None ->
   fetch_coastline_as_waypoints a b c d = Raise DecodeError) /\
  (forall data, body_json response = Some data ->
   fetch_coastline_as_waypoints a b c d = reshape data).
Proof.
  intros Hget _. split; [|split].
  - intros H. apply network_error_iff_transport_failure in H. congruence.
  - intros Hbody. rewrite (fetch_responded _ _ _ _ _ Hget).
    unfold json. now rewrite Hbody.
  - intros data Hbody. rewrite (fetch_responded _ _ _ _ _ Hget).
    unfold json. now rewrite Hbody.
Qed.

(** Claim C4. For every upstream response whose body is not valid JSON,
    the call fails with [DecodeError] and returns no result at all. *)
Theorem invalid_json_raises_decode_error a b c d response :
  requests_get overpass_url [(u "data", query a b c d)]
  = Responded response ->
  body_json response = None ->
  fetch_coastline_as_waypoints a b c d = Raise DecodeError /\
  forall segments, fetch_coastline_as_waypoints a b c d <> Ok segments.
Proof.
  intros Hget Hbody.
  assert (H : fetch_coastline_as_waypoints a b c d = Raise DecodeError).
  { rewrite (fetch_responded _ _ _ _ _ Hget). unfold json.
    now rewrite Hbody. }
  split; [assumption|]. intros segments. rewrite H. discriminate.
Qed.

(** Claim C5. For every element object without a [geometry] field, the
    loop body does not fail and appends an empty segment, so that the
    segment returned for that element is empty. *)
Theorem missing_geometry_gives_empty_segment
    a b c d entries els j way_entries :
  upstream_decodes_to a b c d (PyDict entries) ->
  dict_lookup (u "elements") entries = Some (PyList els) ->
  Forall (fun way => is_element_object way = true) els ->
  nth_error els j = Some (PyDict way_entries) ->
  dict_lookup (u "geometry") way_entries = None ->
  (forall all_segments,
     append_segment (PyDict way_entries) all_segments
     = Ok (all_segments ++ [[]])) /\
  exists segments,
    fetch_coastline_as_waypoints a b c d = Ok segments /\
    nth_error segments j = Some [].
Proof.
  intros Hup Hel Hall Hj Hgeo. split.
  - intros all_segments. unfold append_segment.
    now rewrite (way_waypoints_no_geometry _ Hgeo).
  - destruct (fetch_element_objects _ _ _ _ _ _ Hup Hel Hall)
      as [segments [Hfetch Hall2]].
    destruct (Forall2_nth_error_l _ _ _ Hall2 _ _ Hj)
      as [waypoints [Hseg Hway]].
    rewrite (way_waypoints_no_geometry _ Hgeo) in Hway.
    inversion Hway; subst. now exists segments.
Qed.

(** Claim C6. For every decoded response object without an [elements]
    field, the function returns the empty result and does not fail. *)
Theorem missing_elements_gives_empty_result a b c d entries :
  upstream_decodes_to a b c d (PyDict entries) ->
  dict_lookup (u "elements") entries = None ->
  fetch_coastline_as_waypoints a b c d = Ok [].
Proof.
  intros Hup Hel. rewrite (fetch_decoded _ _ _ _ _ Hup).
  unfold reshape. simpl. now rewrite Hel.
Qed.

(** Claim C7. For every bounding box with [minLat <= maxLat] and
    [minLon <= maxLon], the query sent in the one request of the function
    contains, right after the coastline filter, the clause
    [(minLat, minLon, maxLat, maxLon)] with the four bounds in this
    order. *)
Theorem query_lists_bounds_in_order a b c d :
  valid_bbox a b c d ->
  (exists pre post,
     query a b c d
     = pre
       ++ u "way[" ++ dquote ++ u "natural" ++ dquote ++ u "="
       ++ dquote ++ u "coastline" ++ dquote ++ u "]"
       ++ u "(" ++ format_number a ++ u ", " ++ format_number b ++ u ", "
       ++ format_number c ++ u ", " ++ format_number d ++ u ")"
       ++ post) /\
  fetch_coastline_as_waypoints a b c d
  = (response <- returned
       (requests_get overpass_url [(u "data", query a b c d)]) ;;
     data <- json response ;;
     reshape data).
Proof.
  intros _. split; [|reflexivity].
  exists (newline ++ u "    [out:json][timeout:25];" ++ newline
          ++ u "    (" ++ newline ++ u "      ").
  exists (u ";" ++ newline ++ u "    );" ++ newline
          ++ u "    out geom;" ++ newline ++ u "    ").
  reflexivity.
Qed.

(** Claim C8. For every decoded response whose [elements] field is an
    empty array, the function returns the empty result, and
    [json.dumps(..., indent=2)] of that result is the text [[]]. *)
Theorem zero_elements_prints_empty_array a b c d entries :
  upstream_decodes_to a b c d (PyDict entries) ->
  dict_lookup (u "elements") entries = Some (PyList []) ->
  exists segments,
    fetch_coastline_as_waypoints a b c d = Ok segments /\
    segments = [] /\
    dumps segments = u "[]".
Proof.
  intros Hup Hel. exists []. split; [|split; reflexivity].
  now rewrite (fetch_elements _ _ _ _ _ _ Hup Hel).
Qed.

(** Claim C9. When the response is well formed (every element an object
    whose geometry, if present, is an array of objects) and some element
    has a point object without the [lat] or without the [lon] key, the
    function fails with a [KeyError] for [lat] or [lon]: the point is
    neither skipped nor given a default value. *)
Theorem incomplete_point_raises_key_error a b c d entries els :
  upstream_decodes_to a b c d (PyDict entries) ->
  dict_lookup (u "elements") entries = Some (PyList els) ->
  Forall (fun way => element_with is_object way = true) els ->
  Exists (fun way => has_incomplete_point way = true) els ->
  exists k,
    (k = u "lat" \/ k = u "lon") /\
    fetch_coastline_as_waypoints a b c d = Raise (KeyError k).
Proof.
  intros Hup Hel Hall Hex. rewrite (fetch_elements _ _ _ _ _ _ Hup Hel).
  destruct (mapM_Raise way_waypoints missing_coordinate els)
    as [e [He [Hk|Hk]]].
  - eapply Forall_impl; [|exact Hall].
    intros way Hway e. now apply object_geometry_raises.
  - rewrite Forall_forall in Hall.
    apply Exists_exists in Hex. destruct Hex as [way [Hin Hbad]].
    apply Exists_exists. exists way. split; [assumption|].
    apply incomplete_point_way_raises; auto.
  - exists (u "lat"). subst e. auto.
  - exists (u "lon"). subst e. auto.
Qed.

(** Claim C10. No element is filtered out by its type: for a response of
    element objects, the result has one segment per object of the
    [elements] array, each segment is the one its element yields whatever
    its [type] field is set to, and an element without geometry (of any
    type) yields the empty segment. *)
Theorem every_element_yields_one_segment a b c d entries els :
  upstream_decodes_to a b c d (PyDict entries) ->
  dict_lookup (u "elements") entries = Some (PyList els) ->
  Forall (fun way => is_element_object way = true) els ->
  exists segments,
    fetch_coastline_as_waypoints a b c d = Ok segments /\
    length segments = length els /\
    Forall2
      (fun way waypoints =>
         way_waypoints way = Ok waypoints /\
         (forall ty, way_waypoints (with_type ty way) = Ok waypoints) /\
         (forall way_entries,
            way = PyDict way_entries ->
            dict_lookup (u "geometry") way_entries = None ->
            waypoints = []))
      els segments.
Proof.
  intros Hup Hel Hall.
  destruct (fetch_element_objects _ _ _ _ _ _ Hup Hel Hall)
    as [segments [Hfetch Hall2]].
  exists segments. split; [assumption|]. split.
  - symmetry. exact (Forall2_length Hall2).
  - eapply Forall2_impl; [|exact Hall2].
    intros way waypoints Hway. split; [assumption|]. split.
    + intros ty. now rewrite way_waypoints_with_type.
    + intros way_entries -> Hgeo.
      rewrite (way_waypoints_no_geometry _ Hgeo) in Hway.
      now inversion Hway.
Qed.

(** ** Further properties of the function *)

Lemma mapM_app {A B : Type} (f : A -> result B) xs ys :
  mapM f (xs ++ ys)
  = (a <- mapM f xs ;; b <- mapM f ys ;; Ok (a ++ b)).
Proof.
  induction xs as [|x xs IH]; simpl.
  - now rewrite bind_Ok_id.
  - destruct (f x) as [y|e]; simpl; [|reflexivity].
    rewrite IH. destruct (mapM f xs); simpl; [|reflexivity].
    destruct (mapM f ys); reflexivity.
Qed.

Lemma mapM_map {A B C : Type} (g : A -> B) (f : B -> result C)
    (f' : A -> result C) xs :
  (forall x, f (g x) = f' x) -> mapM f (map g xs) = mapM f' xs.
Proof.
  intros H. induction xs as [|x xs IH]; simpl; [reflexivity|].
  now rewrite H, IH.
Qed.

Lemma mapM_outcome {A B : Type} (f : A -> result B) err xs :
  (forall x, outcome_is (f x) (err x)) ->
  outcome_is (mapM f xs) (first_error err xs).
Proof.
  intros H. induction xs as [|x xs IH]; simpl.
  - now exists [].
  - specialize (H x). destruct (err x) as [e|]; simpl in *.
    + now rewrite H.
    + destruct H as [y ->]. simpl.
      destruct (first_error err xs); simpl in *.
      * now rewrite IH.
      * destruct IH as [ys ->]. simpl. eauto.
Qed.

Lemma outcome_is_Raise {A : Type} (c : result A) oe e :
  outcome_is c oe -> (c = Raise e <-> oe = Some e).
Proof.
  destruct oe as [e'|]; simpl.
  - intros ->. split; intros H; inversion H; reflexivity.
  - intros [a ->]. split; discriminate.
Qed.

Lemma outcome_is_Ok {A : Type} (c : result A) oe :
  outcome_is c oe -> ((exists a, c = Ok a) <-> oe = None).
Proof.
  destruct oe as [e'|]; simpl.
  - intros ->. split; [intros [a H]|]; discriminate.
  - intros H. tauto.
Qed.

Lemma first_error_app {A : Type} (err : A -> option exn) xs ys :
  first_error err xs = None ->
  first_error err (xs ++ ys) = first_error err ys.
Proof.
  induction xs as [|x xs IH]; simpl; [reflexivity|].
  destruct (err x); [discriminate|assumption].
Qed.

Lemma first_error_none {A : Type} (err : A -> option exn) xs :
  Forall (fun x => err x = None) xs -> first_error err xs = None.
Proof.
  induction 1 as [|x xs Hx _ IH]; simpl; [reflexivity|]. now rewrite Hx.
Qed.

Lemma first_error_in {A : Type} (err : A -> option exn) xs e :
  first_error err xs = Some e -> exists x, In x xs /\ err x = Some e.
Proof.
  induction xs as [|x xs IH]; simpl; [discriminate|].
  destruct (err x) as [e'|] eqn:E.
  - intros H; inversion H; subst. eauto.
  - intros H. destruct (IH H) as [x' [Hin Hx']]. eauto.
Qed.

Lemma point_outcome point : outcome_is (waypoint_of point) (point_error point).
Proof.
  destruct point; simpl; try reflexivity.
  unfold waypoint_of, py_getitem, has_key.
  destruct (dict_lookup (u "lat") entries); simpl; [|reflexivity].
  destruct (dict_lookup (u "lon") entries); simpl; [eauto|reflexivity].
Qed.

Lemma iter_outcome {B : Type} (f : pyobj -> result B) err o :
  (forall x, outcome_is (f x) (err x)) ->
  outcome_is (xs <- py_iter o ;; mapM f xs) (iter_error err o).
Proof.
  intros H. unfold iter_error.
  destruct (py_iter o); simpl; [now apply mapM_outcome|reflexivity].
Qed.

Lemma way_outcome way : outcome_is (way_waypoints way) (way_error way).
Proof.
  rewrite way_waypoints_mapM. destruct way; simpl; try reflexivity.
  destruct (dict_lookup (u "geometry") entries); simpl.
  - apply iter_outcome, point_outcome.
  - now exists [].
Qed.

Lemma reshape_outcome data : outcome_is (reshape data) (data_error data).
Proof.
  rewrite reshape_mapM. destruct data; simpl; try reflexivity.
  destruct (dict_lookup (u "elements") entries); simpl.
  - apply iter_outcome, way_outcome.
  - now exists [].
Qed.

Lemma point_object_no_error point :
  is_point_object point = true -> point_error point = None.
Proof.
  destruct point; simpl; try discriminate.
  intros H. apply andb_true_iff in H. destruct H as [-> ->]. reflexivity.
Qed.

Lemma element_object_no_error way :
  is_element_object way = true -> way_error way = None.
Proof.
  intros H. destruct (element_object_segment way H) as [waypoints Hw].
  apply (outcome_is_Ok _ _ (way_outcome way)). eauto.
Qed.

Lemma point_error_kinds point e :
  point_error point = Some e -> e = TypeError \/ missing_coordinate e.
Proof.
  unfold missing_coordinate. destruct point; simpl;
    try solve [intros H; inversion H; auto].
  destruct (has_key (u "lat") entries);
    [destruct (has_key (u "lon") entries)|];
    intros H; inversion H; auto.
Qed.

Lemma iter_error_kinds err o e (P : exn -> Prop) :
  P TypeError ->
  (forall x e', err x = Some e' -> P e') ->
  iter_error err o = Some e -> P e.
Proof.
  intros HT Herr. unfold iter_error.
  destruct (py_iter o) as [xs|e'] eqn:E.
  - intros H. apply first_error_in in H. destruct H as [x [_ Hx]]. eauto.
  - destruct o; try discriminate; simpl in E; inversion E;
      intros H; inversion H; subst; assumption.
Qed.

Lemma data_error_key k data :
  data_error data = Some (KeyError k) -> k = u "lat" \/ k = u "lon".
Proof.
  set (P := fun e => forall k', e = KeyError k' ->
                                k' = u "lat" \/ k' = u "lon").
  assert (HT : P TypeError) by (intros k' H; discriminate).
  assert (Hpoint : forall x e, point_error x = Some e -> P e).
  { intros x e H k' ->. apply point_error_kinds in H.
    destruct H as [H1|[H1|H1]]; inversion H1; auto. }
  assert (Hway : forall x e, way_error x = Some e -> P e).
  { intros x e. destruct x; simpl;
      try solve [intros H; inversion H; intros k' Hk; discriminate].
    destruct (dict_lookup (u "geometry") entries); [|discriminate].
    now apply iter_error_kinds. }
  destruct data; simpl; try discriminate.
  destruct (dict_lookup (u "elements") entries); [|discriminate].
  intros H. exact (iter_error_kinds _ _ _ P HT Hway H k eq_refl).
Qed.

Lemma waypoint_of_prune point :
  waypoint_of (prune_point point) = waypoint_of point.
Proof.
  destruct point; try reflexivity.
  unfold waypoint_of, prune_point, py_getitem, keep.
  destruct (dict_lookup (u "lat") entries);
    destruct (dict_lookup (u "lon") entries); reflexivity.
Qed.

Lemma way_waypoints_prune way :
  way_waypoints (prune_way way) = way_waypoints way.
Proof.
  destruct way; try reflexivity.
  rewrite !way_waypoints_mapM. simpl.
  destruct (dict_lookup (u "geometry") entries) as [g|]; [|reflexivity].
  destruct g; try reflexivity. simpl.
  apply mapM_map, waypoint_of_prune.
Qed.

Lemma reshape_prune data : reshape (prune_data data) = reshape data.
Proof.
  destruct data; try reflexivity.
  rewrite !reshape_mapM. simpl.
  destruct (dict_lookup (u "elements") entries) as [els|]; [|reflexivity].
  destruct els; try reflexivity. simpl.
  apply mapM_map, way_waypoints_prune.
Qed.

Lemma fetch_outcome a b c d data :
  upstream_decodes_to a b c d data ->
  outcome_is (fetch_coastline_as_waypoints a b c d) (data_error data).
Proof.
  intros Hup. rewrite (fetch_decoded _ _ _ _ _ Hup). apply reshape_outcome.
Qed.

Lemma fetch_raises_data_error a b c d data e :
  upstream_decodes_to a b c d data ->
  data_error data = Some e ->
  fetch_coastline_as_waypoints a b c d = Raise e.
Proof.
  intros Hup. apply (outcome_is_Raise _ _ e (fetch_outcome _ _ _ _ _ Hup)).
Qed.

Lemma fetch_first_failing a b c d entries pre bad post e :
  upstream_decodes_to a b c d (PyDict entries) ->
  dict_lookup (u "elements") entries = Some (PyList (pre ++ bad :: post)) ->
  Forall (fun way => is_element_object way = true) pre ->
  way_error bad = Some e ->
  fetch_coastline_as_waypoints a b c d = Raise e.
Proof.
  intros Hup Hel Hpre Hbad.
  apply (outcome_is_Raise _ _ e (fetch_outcome _ _ _ _ _ Hup)).
  simpl. rewrite Hel. unfold iter_error. simpl.
  rewrite first_error_app.
  - simpl. now rewrite Hbad.
  - apply first_error_none. eapply Forall_impl; [|exact Hpre].
    apply element_object_no_error.
Qed.

Lemma reshape_not_http_error data e :
  reshape data = Raise e -> e <> NetworkError /\ e <> DecodeError.
Proof.
  intros H. apply reshape_raises_builtin in H.
  split; intros ->; destruct H.
Qed.

(** Property X1. The two exceptions of the HTTP exchange are told apart by the exchange
    alone: the call fails with [NetworkError] exactly when [requests.get]
    raises, and with [DecodeError] exactly when a response came back whose
    body is not valid JSON; the reshaping loops raise neither. *)
Theorem http_errors_classified a b c d :
  (fetch_coastline_as_waypoints a b c d = Raise NetworkError <->
   requests_get overpass_url [(u "data", query a b c d)] = TransportFailure)
  /\
  (fetch_coastline_as_waypoints a b c d = Raise DecodeError <->
   exists response,
     requests_get overpass_url [(u "data", query a b c d)]
     = Responded response /\
     body_json response = None).
Proof.
  split; [apply network_error_iff_transport_failure|].
  unfold fetch_coastline_as_waypoints.
  destruct (requests_get overpass_url [(u "data", query a b c d)])
    as [|response]; simpl.
  - split; [discriminate|]. intros [r [H _]]. discriminate.
  - unfold json. destruct (body_json response) as [data|] eqn:Eb; simpl.
    + split.
      * intros H. apply reshape_not_http_error in H. tauto.
      * intros [r [H Hnone]]. inversion H; subst. congruence.
    + split; [|reflexivity]. intros _. exists response. auto.
Qed.

(** Property X3. The outcome of the call on a decoded body is that of visiting the
    elements, and in each the points, in order: the call raises [e]
    exactly when [e] is the first exception met ([AttributeError] for a
    body or element that is not an object, [TypeError] for an [elements] or
    [geometry] value that cannot be iterated or a point that is not an
    object, [KeyError] for a point without [lat] or [lon]), and returns a
    result exactly when there is none. *)
Theorem outcome_follows_first_error a b c d data :
  upstream_decodes_to a b c d data ->
  (forall e,
     fetch_coastline_as_waypoints a b c d = Raise e <->
     data_error data = Some e) /\
  ((exists segments, fetch_coastline_as_waypoints a b c d = Ok segments) <->
   data_error data = None).
Proof.
  intros Hup. split.
  - intros e. apply outcome_is_Raise. now apply fetch_outcome.
  - apply outcome_is_Ok. now apply fetch_outcome.
Qed.

(** Property X4. The loop stops at the first element that fails: when the elements
    before it are element objects, the call raises the exception of that
    element, whatever follows it. *)
Theorem first_failing_element_decides a b c d entries pre bad post e :
  upstream_decodes_to a b c d (PyDict entries) ->
  dict_lookup (u "elements") entries = Some (PyList (pre ++ bad :: post)) ->
  Forall (fun way => is_element_object way = true) pre ->
  way_error bad = Some e ->
  fetch_coastline_as_waypoints a b c d = Raise e.
Proof.
  intros Hup Hel Hpre Hbad.
  apply (fetch_raises_data_error _ _ _ _ _ _ Hup).
  simpl. rewrite Hel. unfold iter_error. simpl.
  rewrite first_error_app.
  - simpl. now rewrite Hbad.
  - apply first_error_none. eapply Forall_impl; [|exact Hpre].
    apply element_object_no_error.
Qed.

(** Property X5. Inside an element the first point that is not a point object decides:
    a point that is not an object (a [null], say) raises [TypeError], an
    object without [lat] raises [KeyError] for [lat] even when [lon] is
    missing too, and an object with [lat] but without [lon] raises
    [KeyError] for [lon]. *)
Theorem first_bad_point_decides
    a b c d entries pre way_entries post before point after e :
  upstream_decodes_to a b c d (PyDict entries) ->
  dict_lookup (u "elements") entries
  = Some (PyList (pre ++ PyDict way_entries :: post)) ->
  Forall (fun way => is_element_object way = true) pre ->
  dict_lookup (u "geometry") way_entries
  = Some (PyList (before ++ point :: after)) ->
  Forall (fun p => is_point_object p = true) before ->
  point_error point = Some e ->
  fetch_coastline_as_waypoints a b c d = Raise e.
Proof.
  intros Hup Hel Hpre Hgeo Hbefore Hpoint.
  apply (fetch_first_failing _ _ _ _ _ _ _ _ _ Hup Hel Hpre).
  simpl. rewrite Hgeo. unfold iter_error. simpl.
  rewrite first_error_app.
  - simpl. now rewrite Hpoint.
  - apply first_error_none. eapply Forall_impl; [|exact Hbefore].
    apply point_object_no_error.
Qed.

(** Property X6. The only keys whose absence raises [KeyError] are [lat] and [lon]:
    [elements] and [geometry] are read with [get] and a default. *)
Theorem key_error_only_for_coordinates a b c d k :
  fetch_coastline_as_waypoints a b c d = Raise (KeyError k) ->
  k = u "lat" \/ k = u "lon".
Proof.
  unfold fetch_coastline_as_waypoints.
  destruct (requests_get overpass_url [(u "data", query a b c d)])
    as [|response]; simpl; [discriminate|].
  unfold json. destruct (body_json response) as [data|]; simpl;
    [|discriminate].
  intros H. apply (outcome_is_Raise _ _ _ (reshape_outcome data)) in H.
  now apply data_error_key in H.
Qed.

(** Property X7. The default of [get] stands in for a missing key only: an [elements]
    field that is present but [null] is not replaced by the empty list, and
    the call fails with [TypeError]. *)
Theorem null_elements_are_not_defaulted a b c d entries :
  upstream_decodes_to a b c d (PyDict entries) ->
  dict_lookup (u "elements") entries = Some PyNone ->
  fetch_coastline_as_waypoints a b c d = Raise TypeError.
Proof.
  intros Hup Hel.
  apply (outcome_is_Raise _ _ TypeError (fetch_outcome _ _ _ _ _ Hup)).
  simpl. now rewrite Hel.
Qed.

(** Property X10. The printed text is [[]] only for the empty result. *)
Theorem dumps_is_empty_array_iff segments :
  dumps segments = u "[]" <-> segments = [].
Proof.
  split; [|intros ->; reflexivity].
  destruct segments as [|waypoints segments]; [reflexivity|].
  unfold dumps. simpl. intros H. inversion H.
Qed.

(** ** The printed text *)

Lemma pyobj_induction (P : pyobj -> Prop) :
  P PyNone ->
  (forall b, P (PyBool b)) ->
  (forall z, P (PyInt z)) ->
  (forall f, P (PyFloat f)) ->
  (forall s, P (PyStr s)) ->
  (forall items, Forall P items -> P (PyList items)) ->
  (forall entries, Forall (fun kv => P (snd kv)) entries ->
                   P (PyDict entries)) ->
  forall o, P o.
Proof.
  intros HN HB HI HF HS HL HD. fix IH 1.
  intros [ | b | z | f | s | items | entries ];
    [exact HN | apply HB | apply HI | apply HF | apply HS | | ].
  - apply HL. revert items. fix IHl 1.
    intros [|x xs]; constructor; [apply IH | apply IHl].
  - apply HD. revert entries. fix IHl 1.
    intros [|[k v] xs]; constructor; [apply IH | apply IHl].
Qed.

Lemma is_ascii_app a b : is_ascii a -> is_ascii b -> is_ascii (a ++ b).
Proof. intros Ha Hb. apply Forall_app. auto. Qed.

Lemma is_ascii_uint d : is_ascii (u (NilEmpty.string_of_uint d)).
Proof.
  induction d; simpl; try constructor; try reflexivity; assumption.
Qed.

Lemma is_ascii_int_repr z : is_ascii (int_repr z).
Proof.
  unfold int_repr. destruct (Z.to_int z) as [d|d]; simpl.
  - destruct d; try apply (is_ascii_uint (Decimal.D0 _));
      try apply is_ascii_uint.
    repeat constructor.
  - constructor; [reflexivity|].
    destruct d; try apply is_ascii_uint. repeat constructor.
Qed.

Lemma hex_digit_ascii n : (hex_digit (n mod 16) < 128)%N.
Proof.
  assert (H : (n mod 16 < 16)%N) by (apply N.mod_lt; discriminate).
  unfold hex_digit. destruct (N.ltb_spec (n mod 16) 10); lia.
Qed.

Lemma is_ascii_escape_u n : is_ascii (escape_u n).
Proof.
  unfold escape_u.
  repeat (constructor; [first [reflexivity | apply hex_digit_ascii]|]).
  constructor.
Qed.

Lemma is_ascii_escape_char c : is_ascii (escape_char c).
Proof.
  unfold escape_char.
  repeat match goal with
         | |- is_ascii (if (?x =? ?y)%N then _ else _) =>
             destruct (x =? y)%N; [repeat constructor|]
         end.
  destruct ((32 <=? c)%N && (c <=? 126)%N) eqn:E.
  - apply andb_true_iff in E. destruct E as [_ E].
    apply N.leb_le in E. constructor; [|constructor].
    change (c < 128)%N. lia.
  - destruct (c <? 65536)%N; [apply is_ascii_escape_u|].
    apply is_ascii_app; apply is_ascii_escape_u.
Qed.

Lemma is_ascii_basestring s : is_ascii (encode_basestring_ascii s).
Proof.
  unfold encode_basestring_ascii.
  apply is_ascii_app; [repeat constructor|].
  apply is_ascii_app; [|repeat constructor].
  induction s as [|c s IH]; simpl; [constructor|].
  apply is_ascii_app; [apply is_ascii_escape_char|assumption].
Qed.

Lemma is_ascii_newline_indent level : is_ascii (newline_indent level).
Proof.
  unfold newline_indent. apply is_ascii_app; [repeat constructor|].
  induction (2 * level) as [|n IH]; simpl; constructor;
    [reflexivity|assumption].
Qed.

Lemma is_ascii_floatstr f :
  (forall f', is_ascii (float_repr f')) -> is_ascii (floatstr f).
Proof.
  intros Hrepr. destruct f as [s|[|]| |s m e]; simpl; auto;
    repeat constructor.
Qed.

Lemma is_ascii_iterencode :
  (forall f, is_ascii (float_repr f)) ->
  forall o level, is_ascii (iterencode level o).
Proof.
  intros Hrepr o. induction o as [ |b|z|f|s|items IH|entries IH]
    using pyobj_induction; intros level; cbn [iterencode].
  - repeat constructor.
  - destruct b; repeat constructor.
  - apply is_ascii_int_repr.
  - now apply is_ascii_floatstr.
  - apply is_ascii_basestring.
  - destruct IH as [|x xs Hx Hxs]; [repeat constructor|].
    apply is_ascii_app; [repeat constructor|].
    apply is_ascii_app; [apply is_ascii_newline_indent|].
    apply is_ascii_app; [apply Hx|].
    apply is_ascii_app.
    + induction Hxs as [|y ys Hy _ IHys]; [constructor|].
      cbn [iterencode].
      apply is_ascii_app; [repeat constructor|].
      apply is_ascii_app; [apply is_ascii_newline_indent|].
      apply is_ascii_app; [apply Hy|apply IHys].
    + apply is_ascii_app;
        [apply is_ascii_newline_indent|repeat constructor].
  - destruct IH as [|[k v] xs Hx Hxs]; [repeat constructor|].
    apply is_ascii_app; [repeat constructor|].
    apply is_ascii_app; [apply is_ascii_newline_indent|].
    apply is_ascii_app; [apply is_ascii_basestring|].
    apply is_ascii_app; [repeat constructor|].
    apply is_ascii_app; [apply Hx|].
    apply is_ascii_app.
    + induction Hxs as [|[k' v'] ys Hy _ IHys]; [constructor|].
      cbn [iterencode].
      apply is_ascii_app; [repeat constructor|].
      apply is_ascii_app; [apply is_ascii_newline_indent|].
      apply is_ascii_app; [apply is_ascii_basestring|].
      apply is_ascii_app; [repeat constructor|].
      apply is_ascii_app; [apply Hy|apply IHys].
    + apply is_ascii_app;
        [apply is_ascii_newline_indent|repeat constructor].
Qed.

(** Property X11. Whatever strings the upstream sends, the text the script prints
    contains ASCII characters only (the encoder escapes every other
    character), provided [float.__repr__] yields ASCII text. *)
Theorem printed_text_is_ascii :
  (forall f, is_ascii (float_repr f)) ->
  (forall segments, is_ascii (dumps segments)) /\
  (forall text, script = Ok text -> is_ascii text).
Proof.
  intros Hrepr.
  assert (H : forall segments, is_ascii (dumps segments))
    by (intros segments; now apply is_ascii_iterencode).
  split; [assumption|].
  unfold script. simpl.
  destruct (fetch_coastline_as_waypoints _ _ _ _) as [coast_data|e];
    simpl; [|discriminate].
  intros text Htext; inversion Htext; subst.
  apply is_ascii_app; [apply H|repeat constructor].
Qed.

End Fetcher.

(** ** The claims on the example answers *)

Lemma segments_follow_elements_witness :
  (upstream_decodes_to repr_unused mock_network
     (Int 34) (Int 138) (Int 37) (Int 142) (PyDict mock_entries) /\
   dict_lookup (u "elements") mock_entries = Some (PyList mock_elements) /\
   Forall (fun way => is_element_object way = true) mock_elements) /\
  exists segments,
    fetch_coastline_as_waypoints repr_unused mock_network
      (Int 34) (Int 138) (Int 37) (Int 142) = Ok segments /\
    length segments = length mock_elements /\
    forall i way, nth_error mock_elements i = Some way ->
      exists waypoints,
        nth_error segments i = Some waypoints /\
        way_waypoints way = Ok waypoints.
Proof.
  assert (Hup : upstream_decodes_to repr_unused mock_network
                  (Int 34) (Int 138) (Int 37) (Int 142) (PyDict mock_entries))
    by (exists 200%Z; reflexivity).
  assert (Hel : dict_lookup (u "elements") mock_entries
                = Some (PyList mock_elements)) by reflexivity.
  assert (Hall : Forall (fun way => is_element_object way = true)
                   mock_elements) by (repeat constructor).
  split; [auto|].
  exact (segments_follow_elements _ _ _ _ _ _ _ _ Hup Hel Hall).
Defined.

Lemma waypoints_follow_geometry_witness :
  (upstream_decodes_to repr_unused mock_network
     (Int 34) (Int 138) (Int 37) (Int 142) (PyDict mock_entries) /\
   dict_lookup (u "elements") mock_entries = Some (PyList mock_elements) /\
   Forall (fun way => is_element_object way = true) mock_elements /\
   nth_error mock_elements 0 = Some (PyDict mock_way_entries) /\
   dict_lookup (u "geometry") mock_way_entries = Some (PyList mock_points)) /\
  exists segments waypoints,
    fetch_coastline_as_waypoints repr_unused mock_network
      (Int 34) (Int 138) (Int 37) (Int 142) = Ok segments /\
    nth_error segments 0 = Some waypoints /\
    length waypoints = length mock_points /\
    forall i point, nth_error mock_points i = Some point ->
      exists w,
        nth_error waypoints i = Some w /\
        py_getitem point (u "lat") = Ok (lat w) /\
        py_getitem point (u "lon") = Ok (lon w).
Proof.
  assert (Hup : upstream_decodes_to repr_unused mock_network
                  (Int 34) (Int 138) (Int 37) (Int 142) (PyDict mock_entries))
    by (exists 200%Z; reflexivity).
  assert (Hel : dict_lookup (u "elements") mock_entries
                = Some (PyList mock_elements)) by reflexivity.
  assert (Hall : Forall (fun way => is_element_object way = true)
                   mock_elements) by (repeat constructor).
  assert (Hj : nth_error mock_elements 0 = Some (PyDict mock_way_entries))
    by reflexivity.
  assert (Hgeo : dict_lookup (u "geometry") mock_way_entries
                 = Some (PyList mock_points)) by reflexivity.
  split; [repeat split; assumption|].
  exact (waypoints_follow_geometry _ _ _ _ _ _ _ _ _ _ _ Hup Hel Hall Hj Hgeo).
Defined.

(** Claim C3 as stated fails: an answer with the status 500 and a JSON body
    is reshaped into a result, and an answer with the status 504 and a body
    that is not JSON fails with [DecodeError]; neither call fails with
    [NetworkError]. *)
Lemma non_2xx_answer_is_no_network_error :
  is_2xx {| status_code := 500;
            body_json := Some (PyDict remark_entries) |} = false /\
  fetch_coastline_as_waypoints repr_unused error_500_network
    (Int 34) (Int 138) (Int 37) (Int 142) = Ok [] /\
  is_2xx {| status_code := 504; body_json := None |} = false /\
  fetch_coastline_as_waypoints repr_unused error_504_network
    (Int 34) (Int 138) (Int 37) (Int 142) = Raise DecodeError.
Proof. repeat split. Qed.

Lemma non_2xx_status_is_not_examined_witness :
  (error_500_network overpass_url
     [(u "data", query repr_unused (Int 34) (Int 138) (Int 37) (Int 142))]
   = Responded {| status_code := 500;
                  body_json := Some (PyDict remark_entries) |} /\
   is_2xx {| status_code := 500;
             body_json := Some (PyDict remark_entries) |} = false) /\
  fetch_coastline_as_waypoints repr_unused error_500_network
    (Int 34) (Int 138) (Int 37) (Int 142) <> Raise NetworkError.
Proof.
  split; [split; reflexivity|].
  exact (proj1 (non_2xx_status_is_not_examined repr_unused error_500_network
                  (Int 34) (Int 138) (Int 37) (Int 142) _
                  eq_refl eq_refl)).
Defined.

Lemma invalid_json_raises_decode_error_witness :
  (error_504_network overpass_url
     [(u "data", query repr_unused (Int 34) (Int 138) (Int 37) (Int 142))]
   = Responded {| status_code := 504; body_json := None |} /\
   body_json {| status_code := 504; body_json := None |} = None) /\
  fetch_coastline_as_waypoints repr_unused error_504_network
    (Int 34) (Int 138) (Int 37) (Int 142) = Raise DecodeError.
Proof.
  split; [split; reflexivity|].
  exact (proj1 (invalid_json_raises_decode_error repr_unused error_504_network
                  (Int 34) (Int 138) (Int 37) (Int 142) _
                  eq_refl eq_refl)).
Defined.

Lemma missing_geometry_gives_empty_segment_witness :
  (upstream_decodes_to repr_unused mock_network
     (Int 34) (Int 138) (Int 37) (Int 142) (PyDict mock_entries) /\
   dict_lookup (u "elements") mock_entries = Some (PyList mock_elements) /\
   Forall (fun way => is_element_object way = true) mock_elements /\
   nth_error mock_elements 1 = Some (PyDict mock_node_entries) /\
   dict_lookup (u "geometry") mock_node_entries = None) /\
  exists segments,
    fetch_coastline_as_waypoints repr_unused mock_network
      (Int 34) (Int 138) (Int 37) (Int 142) = Ok segments /\
    nth_error segments 1 = Some [].
Proof.
  assert (Hup : upstream_decodes_to repr_unused mock_network
                  (Int 34) (Int 138) (Int 37) (Int 142) (PyDict mock_entries))
    by (exists 200%Z; reflexivity).
  assert (Hel : dict_lookup (u "elements") mock_entries
                = Some (PyList mock_elements)) by reflexivity.
  assert (Hall : Forall (fun way => is_element_object way = true)
                   mock_elements) by (repeat constructor).
  assert (Hj : nth_error mock_elements 1 = Some (PyDict mock_node_entries))
    by reflexivity.
  assert (Hgeo : dict_lookup (u "geometry") mock_node_entries = None)
    by reflexivity.
  split; [repeat split; assumption|].
  exact (proj2 (missing_geometry_gives_empty_segment
                  _ _ _ _ _ _ _ _ _ _ Hup Hel Hall Hj Hgeo)).
Defined.

Lemma missing_elements_gives_empty_result_witness :
  (upstream_decodes_to repr_unused remark_network
     (Int 34) (Int 138) (Int 37) (Int 142) (PyDict remark_entries) /\
   dict_lookup (u "elements") remark_entries = None) /\
  fetch_coastline_as_waypoints repr_unused remark_network
    (Int 34) (Int 138) (Int 37) (Int 142) = Ok [].
Proof.
  assert (Hup : upstream_decodes_to repr_unused remark_network
                  (Int 34) (Int 138) (Int 37) (Int 142)
                  (PyDict remark_entries))
    by (exists 200%Z; reflexivity).
  assert (Hel : dict_lookup (u "elements") remark_entries = None)
    by reflexivity.
  split; [split; assumption|].
  exact (missing_elements_gives_empty_result _ _ _ _ _ _ _ Hup Hel).
Defined.

Lemma query_lists_bounds_in_order_witness :
  valid_bbox (Int 34) (Int 138) (Int 37) (Int 142) /\
  exists pre post,
    query repr_unused (Int 34) (Int 138) (Int 37) (Int 142)
    = pre
      ++ u "way[" ++ dquote ++ u "natural" ++ dquote ++ u "="
      ++ dquote ++ u "coastline" ++ dquote ++ u "]"
      ++ u "(" ++ u "34" ++ u ", " ++ u "138" ++ u ", "
      ++ u "37" ++ u ", " ++ u "142" ++ u ")"
      ++ post.
Proof.
  assert (Hbox : valid_bbox (Int 34) (Int 138) (Int 37) (Int 142))
    by (split; reflexivity).
  split; [assumption|].
  exact (proj1 (query_lists_bounds_in_order repr_unused mock_network
                  (Int 34) (Int 138) (Int 37) (Int 142) Hbox)).
Defined.

Lemma zero_elements_prints_empty_array_witness :
  (upstream_decodes_to repr_unused empty_network
     (Int 34) (Int 138) (Int 37) (Int 142) (PyDict empty_entries) /\
   dict_lookup (u "elements") empty_entries = Some (PyList [])) /\
  exists segments,
    fetch_coastline_as_waypoints repr_unused empty_network
      (Int 34) (Int 138) (Int 37) (Int 142) = Ok segments /\
    segments = [] /\
    dumps repr_unused segments = u "[]".
Proof.
  assert (Hup : upstream_decodes_to repr_unused empty_network
                  (Int 34) (Int 138) (Int 37) (Int 142)
                  (PyDict empty_entries))
    by (exists 200%Z; reflexivity).
  assert (Hel : dict_lookup (u "elements") empty_entries = Some (PyList []))
    by reflexivity.
  split; [split; assumption|].
  exact (zero_elements_prints_empty_array _ _ _ _ _ _ _ Hup Hel).
Defined.

Lemma incomplete_point_raises_key_error_witness :
  (upstream_decodes_to repr_unused broken_network
     (Int 34) (Int 138) (Int 37) (Int 142) (PyDict broken_entries) /\
   dict_lookup (u "elements") broken_entries
   = Some (PyList broken_elements) /\
   Forall (fun way => element_with is_object way = true) broken_elements /\
   Exists (fun way => has_incomplete_point way = true) broken_elements) /\
  exists k,
    (k = u "lat" \/ k = u "lon") /\
    fetch_coastline_as_waypoints repr_unused broken_network
      (Int 34) (Int 138) (Int 37) (Int 142) = Raise (KeyError k).
Proof.
  assert (Hup : upstream_decodes_to repr_unused broken_network
                  (Int 34) (Int 138) (Int 37) (Int 142)
                  (PyDict broken_entries))
    by (exists 200%Z; reflexivity).
  assert (Hel : dict_lookup (u "elements") broken_entries
                = Some (PyList broken_elements)) by reflexivity.
  assert (Hall : Forall (fun way => element_with is_object way = true)
                   broken_elements) by (repeat constructor).
  assert (Hex : Exists (fun way => has_incomplete_point way = true)
                  broken_elements)
    by (apply Exists_cons_tl, Exists_cons_hd; reflexivity).
  split; [repeat split; assumption|].
  exact (incomplete_point_raises_key_error _ _ _ _ _ _ _ _ Hup Hel Hall Hex).
Defined.

Lemma every_element_yields_one_segment_witness :
  (upstream_decodes_to repr_unused mock_network
     (Int 34) (Int 138) (Int 37) (Int 142) (PyDict mock_entries) /\
   dict_lookup (u "elements") mock_entries = Some (PyList mock_elements) /\
   Forall (fun way => is_element_object way = true) mock_elements) /\
  exists segments,
    fetch_coastline_as_waypoints repr_unused mock_network
      (Int 34) (Int 138) (Int 37) (Int 142) = Ok segments /\
    length segments = length mock_elements.
Proof.
  assert (Hup : upstream_decodes_to repr_unused mock_network
                  (Int 34) (Int 138) (Int 37) (Int 142) (PyDict mock_entries))
    by (exists 200%Z; reflexivity).
  assert (Hel : dict_lookup (u "elements") mock_entries
                = Some (PyList mock_elements)) by reflexivity.
  assert (Hall : Forall (fun way => is_element_object way = true)
                   mock_elements) by (repeat constructor).
  split; [auto|].
  destruct (every_element_yields_one_segment _ _ _ _ _ _ _ _ Hup Hel Hall)
    as [segments [Hfetch [Hlen _]]].
  exists segments. auto.
Defined.

(** ** Properties relating two exchanges *)

(** Property X2. The result is a function of the decoded body of the one response: two
    calls, whatever their bounding boxes and networks, end alike when the
    bodies of their responses decode alike, whatever the status codes. *)
Theorem result_determined_by_body
    float_repr net1 net2 a1 b1 c1 d1 a2 b2 c2 d2 response1 response2 :
  net1 overpass_url [(u "data", query float_repr a1 b1 c1 d1)]
  = Responded response1 ->
  net2 overpass_url [(u "data", query float_repr a2 b2 c2 d2)]
  = Responded response2 ->
  body_json response1 = body_json response2 ->
  fetch_coastline_as_waypoints float_repr net1 a1 b1 c1 d1
  = fetch_coastline_as_waypoints float_repr net2 a2 b2 c2 d2.
Proof.
  intros H1 H2 Hbody.
  rewrite (fetch_responded _ _ _ _ _ _ _ H1).
  rewrite (fetch_responded _ _ _ _ _ _ _ H2).
  unfold json. now rewrite Hbody.
Qed.

(** Property X8. The segments of a response whose elements are those of two responses
    put end to end are the segments of the first followed by those of the
    second; it fails as the first does, or else as the second does. *)
Theorem concatenated_elements_concatenate_segments
    float_repr net1 net2 net a b c d entries1 entries2 entries els1 els2 :
  upstream_decodes_to float_repr net1 a b c d (PyDict entries1) ->
  dict_lookup (u "elements") entries1 = Some (PyList els1) ->
  upstream_decodes_to float_repr net2 a b c d (PyDict entries2) ->
  dict_lookup (u "elements") entries2 = Some (PyList els2) ->
  upstream_decodes_to float_repr net a b c d (PyDict entries) ->
  dict_lookup (u "elements") entries = Some (PyList (els1 ++ els2)) ->
  fetch_coastline_as_waypoints float_repr net a b c d
  = (segments1 <- fetch_coastline_as_waypoints float_repr net1 a b c d ;;
     segments2 <- fetch_coastline_as_waypoints float_repr net2 a b c d ;;
     Ok (segments1 ++ segments2)).
Proof.
  intros Hup1 Hel1 Hup2 Hel2 Hup Hel.
  rewrite (fetch_elements _ _ _ _ _ _ _ _ Hup1 Hel1).
  rewrite (fetch_elements _ _ _ _ _ _ _ _ Hup2 Hel2).
  rewrite (fetch_elements _ _ _ _ _ _ _ _ Hup Hel).
  apply mapM_app.
Qed.

(** Property X9. The function reads nothing but the [elements] field of the body, the
    [geometry] field of an element and the [lat] and [lon] fields of a
    point: a response stripped of every other field (identifiers, types,
    tags, nodes, ...) gives the same result or the same exception. *)
Theorem unread_fields_do_not_matter float_repr net net' a b c d data :
  upstream_decodes_to float_repr net a b c d data ->
  upstream_decodes_to float_repr net' a b c d (prune_data data) ->
  fetch_coastline_as_waypoints float_repr net a b c d
  = fetch_coastline_as_waypoints float_repr net' a b c d.
Proof.
  intros Hup Hup'.
  rewrite (fetch_decoded _ _ _ _ _ _ _ Hup).
  rewrite (fetch_decoded _ _ _ _ _ _ _ Hup').
  symmetry. apply reshape_prune.
Qed.

(** ** The further properties on the example answers *)

Lemma outcome_follows_first_error_witness :
  upstream_decodes_to repr_unused broken_network
    (Int 34) (Int 138) (Int 37) (Int 142) (PyDict broken_entries) /\
  (fetch_coastline_as_waypoints repr_unused broken_network
     (Int 34) (Int 138) (Int 37) (Int 142) = Raise (KeyError (u "lon")) <->
   data_error (PyDict broken_entries) = Some (KeyError (u "lon"))).
Proof.
  assert (Hup : upstream_decodes_to repr_unused broken_network
                  (Int 34) (Int 138) (Int 37) (Int 142)
                  (PyDict broken_entries))
    by (exists 200%Z; reflexivity).
  split; [assumption|].
  exact (proj1 (outcome_follows_first_error _ _ _ _ _ _ _ Hup)
           (KeyError (u "lon"))).
Defined.

Lemma first_failing_element_decides_witness :
  (upstream_decodes_to repr_unused broken_network
     (Int 34) (Int 138) (Int 37) (Int 142) (PyDict broken_entries) /\
   dict_lookup (u "elements") broken_entries
   = Some (PyList
             ([PyDict mock_way_entries]
              ++ PyDict [(u "type", PyStr (u "way"));
                         (u "geometry", PyList [PyDict [(u "lat", PyInt 35)]])]
              :: [])) /\
   Forall (fun way => is_element_object way = true)
          [PyDict mock_way_entries] /\
   way_error
     (PyDict [(u "type", PyStr (u "way"));
              (u "geometry", PyList [PyDict [(u "lat", PyInt 35)]])])
   = Some (KeyError (u "lon"))) /\
  fetch_coastline_as_waypoints repr_unused broken_network
    (Int 34) (Int 138) (Int 37) (Int 142) = Raise (KeyError (u "lon")).
Proof.
  assert (Hup : upstream_decodes_to repr_unused broken_network
                  (Int 34) (Int 138) (Int 37) (Int 142)
                  (PyDict broken_entries))
    by (exists 200%Z; reflexivity).
  assert (Hpre : Forall (fun way => is_element_object way = true)
                   [PyDict mock_way_entries]) by (repeat constructor).
  split; [repeat split; assumption|].
  exact (first_failing_element_decides repr_unused broken_network
           (Int 34) (Int 138) (Int 37) (Int 142) broken_entries
           [PyDict mock_way_entries] _ [] _ Hup eq_refl Hpre eq_refl).
Defined.

Lemma first_bad_point_decides_witness :
  (upstream_decodes_to repr_unused broken_network
     (Int 34) (Int 138) (Int 37) (Int 142) (PyDict broken_entries) /\
   Forall (fun way => is_element_object way = true)
          [PyDict mock_way_entries] /\
   point_error (PyDict [(u "lat", PyInt 35)])
   = Some (KeyError (u "lon"))) /\
  fetch_coastline_as_waypoints repr_unused broken_network
    (Int 34) (Int 138) (Int 37) (Int 142) = Raise (KeyError (u "lon")).
Proof.
  assert (Hup : upstream_decodes_to repr_unused broken_network
                  (Int 34) (Int 138) (Int 37) (Int 142)
                  (PyDict broken_entries))
    by (exists 200%Z; reflexivity).
  assert (Hpre : Forall (fun way => is_element_object way = true)
                   [PyDict mock_way_entries]) by (repeat constructor).
  split; [repeat split; assumption|].
  exact (first_bad_point_decides repr_unused broken_network
           (Int 34) (Int 138) (Int 37) (Int 142) broken_entries
           [PyDict mock_way_entries]
           [(u "type", PyStr (u "way"));
            (u "geometry", PyList [PyDict [(u "lat", PyInt 35)]])]
           [] [] (PyDict [(u "lat", PyInt 35)]) [] _
           Hup eq_refl Hpre eq_refl (Forall_nil _) eq_refl).
Defined.

Lemma key_error_only_for_coordinates_witness :
  fetch_coastline_as_waypoints repr_unused broken_network
    (Int 34) (Int 138) (Int 37) (Int 142) = Raise (KeyError (u "lon")) /\
  (u "lon" = u "lat" \/ u "lon" = u "lon").
Proof.
  assert (H : fetch_coastline_as_waypoints repr_unused broken_network
                (Int 34) (Int 138) (Int 37) (Int 142)
              = Raise (KeyError (u "lon"))) by reflexivity.
  split; [assumption|].
  exact (key_error_only_for_coordinates _ _ _ _ _ _ _ H).
Defined.

Lemma null_elements_are_not_defaulted_witness :
  (upstream_decodes_to repr_unused
     (answering 200 (Some (PyDict [(u "elements", PyNone)])))
     (Int 34) (Int 138) (Int 37) (Int 142)
     (PyDict [(u "elements", PyNone)]) /\
   dict_lookup (u "elements") [(u "elements", PyNone)] = Some PyNone) /\
  fetch_coastline_as_waypoints repr_unused
    (answering 200 (Some (PyDict [(u "elements", PyNone)])))
    (Int 34) (Int 138) (Int 37) (Int 142) = Raise TypeError.
Proof.
  assert (Hup : upstream_decodes_to repr_unused
                  (answering 200 (Some (PyDict [(u "elements", PyNone)])))
                  (Int 34) (Int 138) (Int 37) (Int 142)
                  (PyDict [(u "elements", PyNone)]))
    by (exists 200%Z; reflexivity).
  split; [split; [assumption|reflexivity]|].
  exact (null_elements_are_not_defaulted _ _ _ _ _ _ _ Hup eq_refl).
Defined.

Lemma printed_text_is_ascii_witness :
  (forall f, is_ascii (repr_unused f)) /\
  forall segments, is_ascii (dumps repr_unused segments).
Proof.
  assert (Hrepr : forall f, is_ascii (repr_unused f))
    by (intros f; constructor).
  split; [assumption|].
  exact (proj1 (printed_text_is_ascii repr_unused mock_network Hrepr)).
Defined.

Lemma result_determined_by_body_witness :
  (body_json {| status_code := 500;
                body_json := Some (PyDict remark_entries) |}
   = body_json {| status_code := 200;
                  body_json := Some (PyDict remark_entries) |}) /\
  fetch_coastline_as_waypoints repr_unused error_500_network
    (Int 34) (Int 138) (Int 37) (Int 142)
  = fetch_coastline_as_waypoints repr_unused remark_network
      (Int 0) (Int 0) (Int 1) (Int 1).
Proof.
  split; [reflexivity|].
  exact (result_determined_by_body repr_unused
           error_500_network remark_network
           (Int 34) (Int 138) (Int 37) (Int 142)
           (Int 0) (Int 0) (Int 1) (Int 1) _ _
           eq_refl eq_refl eq_refl).
Defined.

Lemma concatenated_elements_concatenate_segments_witness :
  (dict_lookup (u "elements") mock_entries = Some (PyList mock_elements) /\
   dict_lookup (u "elements") broken_entries
   = Some (PyList broken_elements) /\
   dict_lookup (u "elements")
     [(u "elements", PyList (mock_elements ++ broken_elements))]
   = Some (PyList (mock_elements ++ broken_elements))) /\
  fetch_coastline_as_waypoints repr_unused
    (answering 200
       (Some (PyDict
                [(u "elements", PyList (mock_elements ++ broken_elements))])))
    (Int 34) (Int 138) (Int 37) (Int 142)
  = (segments1 <- fetch_coastline_as_waypoints repr_unused mock_network
                    (Int 34) (Int 138) (Int 37) (Int 142) ;;
     segments2 <- fetch_coastline_as_waypoints repr_unused broken_network
                    (Int 34) (Int 138) (Int 37) (Int 142) ;;
     Ok (segments1 ++ segments2)).
Proof.
  split; [repeat split|].
  refine (concatenated_elements_concatenate_segments repr_unused
            mock_network broken_network
            (answering 200
               (Some (PyDict [(u "elements",
                               PyList (mock_elements ++ broken_elements))])))
            (Int 34) (Int 138) (Int 37) (Int 142)
            mock_entries broken_entries
            [(u "elements", PyList (mock_elements ++ broken_elements))]
            mock_elements broken_elements
            _ eq_refl _ eq_refl _ eq_refl);
    exists 200%Z; reflexivity.
Defined.

Lemma unread_fields_do_not_matter_witness :
  (upstream_decodes_to repr_unused mock_network
     (Int 34) (Int 138) (Int 37) (Int 142) (PyDict mock_entries) /\
   upstream_decodes_to repr_unused
     (answering 200 (Some (prune_data (PyDict mock_entries))))
     (Int 34) (Int 138) (Int 37) (Int 142)
     (prune_data (PyDict mock_entries))) /\
  fetch_coastline_as_waypoints repr_unused mock_network
    (Int 34) (Int 138) (Int 37) (Int 142)
  = fetch_coastline_as_waypoints repr_unused
      (answering 200 (Some (prune_data (PyDict mock_entries))))
      (Int 34) (Int 138) (Int 37) (Int 142).
Proof.
  assert (Hup : upstream_decodes_to repr_unused mock_network
                  (Int 34) (Int 138) (Int 37) (Int 142) (PyDict mock_entries))
    by (exists 200%Z; reflexivity).
  assert (Hup' : upstream_decodes_to repr_unused
                   (answering 200 (Some (prune_data (PyDict mock_entries))))
                   (Int 34) (Int 138) (Int 37) (Int 142)
                   (prune_data (PyDict mock_entries)))
    by (exists 200%Z; reflexivity).
  split; [split; assumption|].
  exact (unread_fields_do_not_matter _ _ _ _ _ _ _ _ Hup Hup').
Defined.
